(** * Tools/generate_meshlets.py: the meshlet build tool

    A shallow embedding of [generate_meshlets] and of the data it returns,
    followed by the properties of the meshlet generator that hold (or fail)
    on that code.

    Conventions of the embedding:
    - a Python [int] is a [Z] (unbounded);
    - a Python [float] is the rational it denotes (every finite binary64
      value is a rational; the only float literal of the source, [0.5], is
      exactly [1 # 2]);
    - a numpy array indexed along its first axis is the [list] of its rows,
      and [.tolist()] of such an array is that list; the two buffers of a
      call are arrays, the fields of a meshlet are Python lists, which have
      no [.tolist()], so a meshlet is never an argument of the generator;
    - [print] appends one line to the standard output, which is threaded
      through the computation together with the outcome (normal return or
      raised error).

    The script body under [if __name__ == "__main__"] builds random test
    data, calls the generator at its defaults and dumps the result to a
    file; it is embedded up to that call, its array of random numbers being
    an argument, and the write to the file is left out. *)

From Stdlib Require Import Reals Qreals Lra.
From Stdlib Require Import String ZArith QArith List Lia Permutation.
From Stdlib Require Import DecimalString.
Import ListNotations.

Set Implicit Arguments.

Local Open Scope Z_scope.

(** ** Python values used by the tool *)

Module Py.

(** The numbers of a Python list literal such as [[0, 1, 0, 0.5]]. *)
Inductive num : Type :=
| Int (z : Z)
| Float (q : Q).

Definition num_val (x : num) : Q :=
  match x with
  | Int z => inject_Z z
  | Float q => q
  end.

(** [a[:stop]] for a sequence [a] and an integer [stop]: a negative [stop]
    counts from the end, and both ends are clamped to the sequence. *)
Definition slice_to (A : Type) (a : list A) (stop : Z) : list A :=
  if 0 <=? stop
  then firstn (Z.to_nat stop) a
  else firstn (Z.to_nat (Z.of_nat (length a) + stop)) a.

(** [str(n)] for the non-negative integer that [len] returns. *)
Definition str_of_len (n : nat) : string :=
  NilEmpty.string_of_uint (Nat.to_uint n).

(** The error classes a caller of the generator is told to expect.  The
    source defines neither and has no [raise] statement. *)
Inductive error : Type :=
| InvalidInput
| InvalidConfig.

Inductive outcome (A : Type) : Type :=
| Returned (a : A)
| Raised (e : error).

Arguments Raised {A} e.

(** Standard output, oldest line first. *)
Definition stdout := list string.

(** A Python computation: it extends the standard output and ends by
    returning or by raising. *)
Definition M (A : Type) : Type := stdout -> stdout * outcome A.

Definition ret (A : Type) (a : A) : M A :=
  fun out => (out, Returned a).

Definition bind (A B : Type) (c : M A) (k : A -> M B) : M B :=
  fun out =>
    match c out with
    | (out', Returned a) => k a out'
    | (out', Raised e) => (out', Raised e)
    end.

Definition print (line : string) : M unit :=
  fun out => (out ++ [line], Returned tt).

(** Run from an empty standard output. *)
Definition run (A : Type) (c : M A) : stdout * outcome A := c [].

Definition result (A : Type) (c : M A) : outcome A := snd (run c).

Definition printed (A : Type) (c : M A) : stdout := fst (run c).

End Py.

Declare Scope py_scope.
Delimit Scope py_scope with py.
Notation "x <- c ;; k" := (Py.bind c (fun x => k))
  (at level 61, c at next level, right associativity) : py_scope.
Notation "c ;; k" := (Py.bind c (fun _ => k))
  (at level 61, right associativity) : py_scope.

(** ** The meshlet record and the generator *)

(** The dictionary built at [dummy_meshlet = {...}]: its three keys, in
    insertion order.  [V] is the type of a row of the vertex array. *)
Record Meshlet (V : Type) : Type := mkMeshlet {
  vertices : list V;
  indices : list Z;
  cone : list Py.num
}.

Section Generator.

Variable V : Type.

(** [def generate_meshlets(vertices, indices, max_vertices=64,
    max_triangles=126)]. *)
Definition generate_meshlets (vertices : list V) (indices : list Z)
    (max_vertices max_triangles : Z) : Py.M (list (Meshlet V)) :=
  (let meshlets := [] in
   Py.print ("OMNI Build Tool: Generating meshlets for "
             ++ Py.str_of_len (length vertices) ++ " vertices and "
             ++ Py.str_of_len (length indices) ++ " indices...")%string ;;
   let dummy_meshlet :=
     {| vertices := Py.slice_to vertices max_vertices;
        indices := Py.slice_to indices (max_triangles * 3);
        cone := [Py.Int 0; Py.Int 1; Py.Int 0; Py.Float (1 # 2)] |} in
   let meshlets := meshlets ++ [dummy_meshlet] in
   Py.ret meshlets)%py.

(** The meshlets a call hands to its caller: the returned list, and
    nothing when the call raises. *)
Definition produced (vs : list V) (idx : list Z) (mv mt : Z)
    : list (Meshlet V) :=
  match Py.result (generate_meshlets vs idx mv mt) with
  | Py.Returned ms => ms
  | Py.Raised _ => []
  end.

End Generator.

(** The defaults of the two keyword parameters. *)
Definition default_max_vertices : Z := 64.
Definition default_max_triangles : Z := 126.

(** ** Meshes and configurations *)

(** A triangle: three vertex indices, in winding order. *)
Definition Triangle : Type := (Z * Z * Z)%type.

(** The triangles of a flat index buffer, three indices at a time. *)
Fixpoint triangles_of (flat : list Z) : list Triangle :=
  match flat with
  | a :: b :: c :: rest => (a, b, c) :: triangles_of rest
  | _ => []
  end.

(** Triangles laid out flat again, three indices each. *)
Definition flatten_triangles (ts : list Triangle) : list Z :=
  flat_map (fun t : Triangle => let '(a, b, c) := t in [a; b; c]) ts.

Definition index_in_range (n : nat) (i : Z) : Prop :=
  0 <= i < Z.of_nat n.

(** What a meshlet stores under one of its keys. *)
Inductive entry (V : Type) : Type :=
| Rows (rows : list V)
| Ints (ints : list Z)
| Nums (nums : list Py.num).

Arguments Rows {V} rows.
Arguments Ints {V} ints.
Arguments Nums {V} nums.

Section Meshes.

Variable V : Type.

(** A well-formed mesh: the index count is a multiple of three and every
    index addresses a vertex. *)
Definition valid_input (vs : list V) (idx : list Z) : Prop :=
  (length idx mod 3 = 0)%nat /\ Forall (index_in_range (length vs)) idx.

(** The three ways a mesh is malformed. *)
Definition malformed_input (vs : list V) (idx : list Z) : Prop :=
  (exists i, In i idx /\ Z.of_nat (length vs) <= i)
  \/ (length idx mod 3 <> 0)%nat
  \/ (vs = [] \/ idx = []).

Definition valid_config (mv mt : Z) : Prop := 3 <= mv /\ 1 <= mt.

Definition invalid_config (mv mt : Z) : Prop := mv < 3 \/ mt < 1.

(** *** Properties of a meshlet and of a meshlet set *)

(** All triangles of a meshlet set.  The generator stores the indices of
    the input buffer unchanged, so the triangles of a meshlet already are
    in global vertex indices. *)
Definition all_triangles (ms : list (Meshlet V)) : list Triangle :=
  flat_map (fun m => triangles_of (indices m)) ms.

(** Every input triangle is in the set once: nothing lost, nothing twice. *)
Definition covers (ms : list (Meshlet V)) (idx : list Z) : Prop :=
  Permutation (all_triangles ms) (triangles_of idx).

(** [len(vertices) <= max_vertices] and [len(indices) / 3 <=
    max_triangles], the second cleared of its division. *)
Definition caps_respected (mv mt : Z) (m : Meshlet V) : Prop :=
  Z.of_nat (length (vertices m)) <= mv
  /\ Z.of_nat (length (indices m)) <= 3 * mt.

Definition local_indices_valid (m : Meshlet V) : Prop :=
  Forall (index_in_range (length (vertices m))) (indices m).

(** [m.get(key)] on the dictionary of a meshlet: the three keys of the
    literal at [dummy_meshlet = {...}], and nothing under any other key. *)
Definition Meshlet_get (m : Meshlet V) (key : string) : option (entry V) :=
  if String.eqb key "vertices" then Some (Rows (vertices m))
  else if String.eqb key "indices" then Some (Ints (indices m))
  else if String.eqb key "cone" then Some (Nums (cone m))
  else None.

(** [cone = [axis.x, axis.y, axis.z, cutoff_cosine]], read back from the
    list; a list of another length has no such reading. *)
Definition cone_of (m : Meshlet V) : option (Q * Q * Q * Q) :=
  match cone m with
  | [x; y; z; c] =>
      Some (Py.num_val x, Py.num_val y, Py.num_val z, Py.num_val c)
  | _ => None
  end.

End Meshes.

(** ** Geometry of the culling cone *)

Definition vec3 : Type := (Q * Q * Q)%type.

Definition vx (v : vec3) : Q := fst (fst v).
Definition vy (v : vec3) : Q := snd (fst v).
Definition vz (v : vec3) : Q := snd v.

Definition sub3 (a b : vec3) : vec3 :=
  (vx a - vx b, vy a - vy b, vz a - vz b)%Q.

Definition dot (a b : vec3) : Q :=
  (vx a * vx b + vy a * vy b + vz a * vz b)%Q.

Definition cross (a b : vec3) : vec3 :=
  (vy a * vz b - vz a * vy b,
   vz a * vx b - vx a * vz b,
   vx a * vy b - vy a * vx b)%Q.

(** Unit normals and their dot-products are real numbers: the length of a
    vector of rationals need not be rational. *)
Definition rvec3 : Type := (R * R * R)%type.

Definition rx (n : rvec3) : R := fst (fst n).
Definition ry (n : rvec3) : R := snd (fst n).
Definition rz (n : rvec3) : R := snd n.

Definition to_R3 (v : vec3) : rvec3 :=
  (Q2R (vx v), Q2R (vy v), Q2R (vz v)).

Definition dotR (a b : rvec3) : R :=
  (rx a * rx b + ry a * ry b + rz a * rz b)%R.

(** The Euclidean length of a vector. *)
Definition norm3 (c : vec3) : R := sqrt (Q2R (dot c c)).

(** The unit vector along [c]. *)
Definition normalize (c : vec3) : rvec3 :=
  (Q2R (vx c) / norm3 c, Q2R (vy c) / norm3 c, Q2R (vz c) / norm3 c)%R.

Section Cone.

Variable V : Type.

(** Where a vertex row keeps its position. *)
Variable position : V -> vec3.

(** The position a meshlet gives to one of its indices. *)
Definition corner (m : Meshlet V) (i : Z) : option vec3 :=
  if i <? 0 then None
  else option_map position (nth_error (vertices m) (Z.to_nat i)).

(** The cross product of two edges of a member triangle, in the winding
    order given. *)
Definition face_cross (m : Meshlet V) (t : Triangle) : option vec3 :=
  let '(a, b, c) := t in
  match corner m a, corner m b, corner m c with
  | Some p, Some q, Some r => Some (cross (sub3 q p) (sub3 r p))
  | _, _, _ => None
  end.

(** The face normal of a member triangle: the unit vector along
    [face_cross].  A degenerate triangle (zero cross product) has none, and
    neither has a triangle with an index that addresses no row. *)
Definition face_normal (m : Meshlet V) (t : Triangle) : option rvec3 :=
  match face_cross m t with
  | Some c => if Qeq_bool (dot c c) 0 then None else Some (normalize c)
  | None => None
  end.


(** The bounding sphere of a meshlet, read from its dictionary: either
    [bounds = [x, y, z, radius]] or the two keys [center = [x, y, z]] and
    [radius = [r]]. *)
Definition sphere_of (m : Meshlet V) : option (vec3 * Q) :=
  match Meshlet_get m "bounds" with
  | Some (Nums [x; y; z; r]) =>
      Some ((Py.num_val x, Py.num_val y, Py.num_val z), Py.num_val r)
  | _ =>
      match Meshlet_get m "center", Meshlet_get m "radius" with
      | Some (Nums [x; y; z]), Some (Nums [r]) =>
          Some ((Py.num_val x, Py.num_val y, Py.num_val z), Py.num_val r)
      | _, _ => None
      end
  end.

(** Every row of [m] lies within [radius] of [center]: the squared
    distance is at most the squared radius, for a radius that is not
    negative. *)
Definition sphere_sound (m : Meshlet V) : Prop :=
  exists (center : vec3) (radius : Q),
    sphere_of m = Some (center, radius)
    /\ (0 <= radius)%Q
    /\ Forall (fun v =>
                 (dot (sub3 (position v) center) (sub3 (position v) center)
                  <= radius * radius)%Q)
         (vertices m).

End Cone.

(** ** The statements checked against the generator

    Each is the body of one expected property at given arguments, so that
    it can be evaluated at a concrete mesh. *)

Section Statements.

Variable V : Type.

Definition coverage_at (vs : list V) (idx : list Z) (mv mt : Z) : Prop :=
  valid_input vs idx -> valid_config mv mt ->
  covers (produced vs idx mv mt) idx.

Definition cap_respect_at (vs : list V) (idx : list Z) (mv mt : Z) : Prop :=
  Forall (caps_respected mv mt) (produced vs idx mv mt).

Definition sphere_sound_at (position : V -> vec3)
    (vs : list V) (idx : list Z) (mv mt : Z) : Prop :=
  Forall (sphere_sound position) (produced vs idx mv mt).



Definition config_fail_fast_at (vs : list V) (idx : list Z) (mv mt : Z)
    : Prop :=
  invalid_config mv mt ->
  Py.result (generate_meshlets vs idx mv mt) = Py.Raised Py.InvalidConfig
  /\ produced vs idx mv mt = [].

Definition raises_iff_malformed_at (vs : list V) (idx : list Z) (mv mt : Z)
    : Prop :=
  Py.result (generate_meshlets vs idx mv mt) = Py.Raised Py.InvalidInput
  <-> malformed_input vs idx.

Definition local_validity_at (vs : list V) (idx : list Z) (mv mt : Z)
    : Prop :=
  valid_input vs idx ->
  Forall (@local_indices_valid V) (produced vs idx mv mt).

(** The single-triangle scenario, as far as it can be said of a meshlet
    whose [vertices] are rows of the vertex array: one meshlet, the flat
    triple [[0, 1, 2]], and a cutoff of [1.0]. *)
Definition single_triangle_at (vs : list V) : Prop :=
  length vs = 3%nat ->
  exists m ax ay az cutoff,
    produced vs [0; 1; 2] default_max_vertices default_max_triangles = [m]
    /\ indices m = [0; 1; 2]
    /\ cone_of m = Some (ax, ay, az, cutoff)
    /\ (cutoff == 1)%Q.

End Statements.

(** ** Concrete meshes *)

(** One triangle in the plane [y = 0], wound so that its normal is [+y]. *)
Definition tri_up : list vec3 :=
  [(0, 0, 0); (0, 0, 1); (1, 0, 0)]%Q.

(** The same triangle with the opposite winding: its normal is [-y]. *)
Definition tri_down : list vec3 :=
  [(0, 0, 0); (1, 0, 0); (0, 0, 1)]%Q.

(** A unit square in the plane [y = 0], as two triangles. *)
Definition quad : list vec3 :=
  [(0, 0, 0); (0, 0, 1); (1, 0, 0); (1, 0, 1)]%Q.

Definition quad_indices : list Z := [0; 1; 2; 2; 1; 3].

(** The meshlets returned for the two single triangles under the default
    configuration. *)
Definition tri_up_meshlet : Meshlet vec3 :=
  {| vertices := tri_up; indices := [0; 1; 2];
     cone := [Py.Int 0; Py.Int 1; Py.Int 0; Py.Float (1 # 2)] |}.

(** A triangle whose edge cross product, [(-1, 1, 0)], has the irrational
    length [sqrt 2]. *)
Definition tri_skew : list vec3 :=
  [(0, 0, 0); (0, 0, 1); (1, 1, 0)]%Q.

Definition tri_skew_meshlet : Meshlet vec3 :=
  {| vertices := tri_skew; indices := [0; 1; 2];
     cone := [Py.Int 0; Py.Int 1; Py.Int 0; Py.Float (1 # 2)] |}.

Definition tri_down_meshlet : Meshlet vec3 :=
  {| vertices := tri_down; indices := [0; 1; 2];
     cone := [Py.Int 0; Py.Int 1; Py.Int 0; Py.Float (1 # 2)] |}.

(** ** The script body *)

(** [np.arange(n)]: the integers from [0] to [n - 1]. *)
Definition arange (n : nat) : list Z := map Z.of_nat (seq 0 n).

(** The script under [if __name__ == "__main__"], up to and including
    [meshlets = generate_meshlets(v, idx)].  [v] stands for the array drawn
    by [np.random.rand(100, 3)], one row of three numbers per vertex. *)
Definition script_call (v : list vec3) : Py.M (list (Meshlet vec3)) :=
  let idx := arange 90 in
  generate_meshlets v idx default_max_vertices default_max_triangles.

(** ** Slices *)

Lemma slice_to_length (A : Type) (a : list A) (stop : Z) :
  0 <= stop -> Z.of_nat (length (Py.slice_to a stop)) <= stop.
Proof.
  intros Hstop. unfold Py.slice_to.
  destruct (Z.leb_spec 0 stop) as [_ | Hneg]; [| lia].
  rewrite length_firstn. lia.
Qed.

Lemma slice_to_all (A : Type) (a : list A) (stop : Z) :
  Z.of_nat (length a) <= stop -> Py.slice_to a stop = a.
Proof.
  intros Hlen. unfold Py.slice_to.
  destruct (Z.leb_spec 0 stop) as [_ | Hneg]; [| lia].
  apply firstn_all2. lia.
Qed.

Lemma slice_to_zero (A : Type) (a : list A) : Py.slice_to a 0 = [].
Proof. reflexivity. Qed.

Lemma slice_to_incl (A : Type) (a : list A) (stop : Z) (x : A) :
  In x (Py.slice_to a stop) -> In x a.
Proof.
  unfold Py.slice_to.
  destruct (0 <=? stop); intros Hin;
    match type of Hin with
    | In _ (firstn ?n _) =>
        rewrite <- (firstn_skipn n a); apply in_or_app; left; exact Hin
    end.
Qed.

(** A negative stop drops elements from the end, so the slice of a list
    with more than [- stop] elements is not empty. *)
Lemma slice_to_negative (A : Type) (a : list A) (stop : Z) :
  stop < 0 ->
  length (Py.slice_to a stop) = Z.to_nat (Z.of_nat (length a) + stop).
Proof.
  intros Hneg. unfold Py.slice_to.
  destruct (Z.leb_spec 0 stop) as [Hpos | _]; [lia |].
  rewrite length_firstn. lia.
Qed.

(** ** Triangles of a flat buffer *)

Lemma list_ind3 (A : Type) (P : list A -> Prop) :
  P [] -> (forall a, P [a]) -> (forall a b, P [a; b]) ->
  (forall a b c rest, P rest -> P (a :: b :: c :: rest)) ->
  forall l, P l.
Proof.
  intros Hnil Hone Htwo Hstep.
  fix IH 1.
  intros [| a [| b [| c rest]]].
  - exact Hnil.
  - apply Hone.
  - apply Htwo.
  - apply Hstep, IH.
Qed.

Lemma triangles_of_length (flat : list Z) :
  (length flat mod 3 = 0)%nat ->
  length flat = (3 * length (triangles_of flat))%nat.
Proof.
  induction flat as [| a | a b | a b c rest IH] using list_ind3;
    cbn [length triangles_of]; intros Hmod.
  - reflexivity.
  - discriminate Hmod.
  - discriminate Hmod.
  - replace (S (S (S (length rest)))) with (length rest + 1 * 3)%nat in Hmod
      by lia.
    rewrite Nat.Div0.mod_add in Hmod.
    specialize (IH Hmod). lia.
Qed.

(** ** What one call does *)

Section Run.

Variable V : Type.
Variables (vs : list V) (idx : list Z) (mv mt : Z).

(** One line is printed, then the list of the one dummy meshlet is
    returned. *)
Lemma generate_meshlets_run :
  Py.run (generate_meshlets vs idx mv mt)
  = ([("OMNI Build Tool: Generating meshlets for "
        ++ Py.str_of_len (length vs) ++ " vertices and "
        ++ Py.str_of_len (length idx) ++ " indices...")%string],
     Py.Returned
       [{| vertices := Py.slice_to vs mv;
           indices := Py.slice_to idx (mt * 3);
           cone := [Py.Int 0; Py.Int 1; Py.Int 0; Py.Float (1 # 2)] |}]).
Proof. reflexivity. Qed.

Lemma produced_eq :
  produced vs idx mv mt
  = [{| vertices := Py.slice_to vs mv;
        indices := Py.slice_to idx (mt * 3);
        cone := [Py.Int 0; Py.Int 1; Py.Int 0; Py.Float (1 # 2)] |}].
Proof. reflexivity. Qed.

Lemma produced_inv (m : Meshlet V) :
  In m (produced vs idx mv mt) ->
  vertices m = Py.slice_to vs mv
  /\ indices m = Py.slice_to idx (mt * 3)
  /\ cone m = [Py.Int 0; Py.Int 1; Py.Int 0; Py.Float (1 # 2)].
Proof.
  rewrite produced_eq. intros [<- | []]. repeat split.
Qed.

End Run.

(** ** Shape of the result *)

(** C9: for every vertex buffer, index buffer and configuration (empty
    buffers and [max_triangles = 0] included) the call returns a list of
    exactly one meshlet record. *)
Theorem generate_meshlets_returns_one
    (V : Type) (vs : list V) (idx : list Z) (mv mt : Z) :
  (exists m, Py.result (generate_meshlets vs idx mv mt) = Py.Returned [m])
  /\ length (produced vs idx mv mt) = 1%nat.
Proof.
  split; [| reflexivity].
  eexists. unfold Py.result. rewrite generate_meshlets_run. reflexivity.
Qed.

(** C10: the cone of the returned meshlet is the constant
    [[0, 1, 0, 0.5]], whatever the geometry and the configuration. *)
Theorem cone_is_constant
    (V : Type) (vs : list V) (idx : list Z) (mv mt : Z) :
  map (@cone V) (produced vs idx mv mt)
  = [[Py.Int 0; Py.Int 1; Py.Int 0; Py.Float (1 # 2)]].
Proof.
  rewrite produced_eq. cbn [map cone]. reflexivity.
Qed.

(** C7 (determinism): two runs on identical buffers and identical
    configuration return identical meshlet lists, in order and contents,
    whatever had been printed before each run; they also print the same
    line. *)
Theorem generate_meshlets_deterministic
    (V : Type) (vs vs' : list V) (idx idx' : list Z) (mv mv' mt mt' : Z)
    (out out' : Py.stdout) :
  vs = vs' -> idx = idx' -> mv = mv' -> mt = mt' ->
  snd (generate_meshlets vs idx mv mt out)
  = snd (generate_meshlets vs' idx' mv' mt' out')
  /\ Py.printed (generate_meshlets vs idx mv mt)
     = Py.printed (generate_meshlets vs' idx' mv' mt').
Proof.
  intros -> -> -> ->. split; reflexivity.
Qed.

Lemma generate_meshlets_deterministic_witness :
  (quad = quad /\ quad_indices = quad_indices /\ 64 = 64 /\ 126 = 126)
  /\ snd (generate_meshlets quad quad_indices 64 126 [])
     = snd (generate_meshlets quad quad_indices 64 126
              ["earlier output"%string])
  /\ Py.printed (generate_meshlets quad quad_indices 64 126)
     = Py.printed (generate_meshlets quad quad_indices 64 126).
Proof.
  split; [repeat split |].
  apply (@generate_meshlets_deterministic vec3 quad quad quad_indices
           quad_indices 64 64 126 126 [] ["earlier output"%string]);
    reflexivity.
Defined.

(** ** Errors *)

(** The call raises nothing, on any mesh and any configuration. *)
Lemma result_not_raised
    (V : Type) (vs : list V) (idx : list Z) (mv mt : Z) (e : Py.error) :
  Py.result (generate_meshlets vs idx mv mt) <> Py.Raised e.
Proof.
  unfold Py.result. rewrite generate_meshlets_run. discriminate.
Qed.

(** C4, as stated, fails: with [max_triangles = 0] on the square the call
    does not raise [InvalidConfig], and a meshlet is emitted. *)
Lemma config_fail_fast_counterexample :
  ~ config_fail_fast_at quad quad_indices 64 0.
Proof.
  intros Hclaim.
  destruct Hclaim as [Hraised _].
  - right. lia.
  - exact (@result_not_raised _ _ _ _ _ _ Hraised).
Qed.

(** C4, amended: there is no configuration check.  With
    [max_vertices < 3] or [max_triangles < 1] the call prints its line and
    returns one meshlet holding the two slices; with [max_triangles = 0]
    that meshlet has no indices. *)
Theorem invalid_config_returns
    (V : Type) (vs : list V) (idx : list Z) (mv mt : Z) :
  invalid_config mv mt ->
  exists m,
    Py.result (generate_meshlets vs idx mv mt) = Py.Returned [m]
    /\ length (Py.printed (generate_meshlets vs idx mv mt)) = 1%nat
    /\ vertices m = Py.slice_to vs mv
    /\ indices m = Py.slice_to idx (mt * 3)
    /\ (mt = 0 -> indices m = []).
Proof.
  intros _. eexists. unfold Py.result, Py.printed.
  rewrite generate_meshlets_run. cbn [fst snd vertices indices].
  repeat split. intros ->. reflexivity.
Qed.

Lemma invalid_config_returns_witness :
  invalid_config 64 0
  /\ exists m,
       Py.result (generate_meshlets quad quad_indices 64 0) = Py.Returned [m]
       /\ length (Py.printed (generate_meshlets quad quad_indices 64 0))
          = 1%nat
       /\ vertices m = Py.slice_to quad 64
       /\ indices m = Py.slice_to quad_indices (0 * 3)
       /\ (0 = 0 -> indices m = []).
Proof.
  assert (Hcfg : invalid_config 64 0) by (right; lia).
  split; [exact Hcfg |].
  exact (@invalid_config_returns vec3 quad quad_indices 64 0 Hcfg).
Defined.

(** C5, as stated, fails: an index buffer of one index, [7], over an empty
    vertex buffer is malformed in all three ways, and the call does not
    raise [InvalidInput]. *)
Lemma raises_iff_malformed_counterexample :
  ~ raises_iff_malformed_at (@nil vec3) [7] 64 126.
Proof.
  intros [_ Hraise].
  apply (@result_not_raised vec3 [] [7] 64 126 Py.InvalidInput).
  apply Hraise. right. left. discriminate.
Qed.

(** C5, amended: the call never fails.  On every input, well-formed or
    malformed, it returns a meshlet list and raises no error, [InvalidInput]
    included. *)
Theorem generate_meshlets_never_fails
    (V : Type) (vs : list V) (idx : list Z) (mv mt : Z) :
  (exists ms, Py.result (generate_meshlets vs idx mv mt) = Py.Returned ms)
  /\ (forall e, Py.result (generate_meshlets vs idx mv mt) <> Py.Raised e).
Proof.
  split.
  - eexists. unfold Py.result. rewrite generate_meshlets_run. reflexivity.
  - intros e. apply result_not_raised.
Qed.

(** ** Coverage *)

Lemma quad_valid : valid_input quad quad_indices.
Proof.
  split; [reflexivity |].
  unfold quad_indices, index_in_range.
  repeat constructor; simpl; lia.
Qed.

(** C1, as stated, fails: with the valid configuration
    [max_vertices = 64, max_triangles = 1] the second triangle of the
    square is in no meshlet. *)
Lemma coverage_counterexample :
  ~ coverage_at quad quad_indices 64 1.
Proof.
  intros Hclaim.
  assert (Hcfg : valid_config 64 1) by (split; lia).
  specialize (Hclaim quad_valid Hcfg).
  apply Permutation_length in Hclaim.
  discriminate Hclaim.
Qed.

(** C1, amended: for every valid mesh of at most [max_triangles] triangles
    and every valid configuration, the triangles of the returned meshlets
    (which carry the global indices of the input unchanged) are exactly the
    input triangles, none omitted and none duplicated. *)
Theorem coverage_within_cap
    (V : Type) (vs : list V) (idx : list Z) (mv mt : Z) :
  valid_input vs idx -> valid_config mv mt ->
  Z.of_nat (length (triangles_of idx)) <= mt ->
  covers (produced vs idx mv mt) idx.
Proof.
  intros [Hmod _] _ Hcap.
  unfold covers. rewrite produced_eq. cbn [all_triangles flat_map indices].
  rewrite app_nil_r.
  rewrite slice_to_all; [apply Permutation_refl |].
  rewrite (triangles_of_length idx Hmod). lia.
Qed.

Lemma coverage_within_cap_witness :
  valid_input quad quad_indices /\ valid_config 64 126
  /\ Z.of_nat (length (triangles_of quad_indices)) <= 126
  /\ covers (produced quad quad_indices 64 126) quad_indices.
Proof.
  assert (Hcfg : valid_config 64 126) by (split; lia).
  assert (Hcap : Z.of_nat (length (triangles_of quad_indices)) <= 126)
    by (simpl; lia).
  repeat split; try assumption; try apply quad_valid.
  exact (@coverage_within_cap vec3 quad quad_indices 64 126
           quad_valid Hcfg Hcap).
Defined.

(** ** Caps *)

(** C2, as stated, fails: with [max_vertices = -1] the slice
    [vertices[:-1]] of the square keeps three rows, and [3 <= -1] is
    false. *)
Lemma cap_respect_counterexample :
  ~ cap_respect_at quad quad_indices (-1) 126.
Proof.
  intros Hclaim.
  unfold cap_respect_at in Hclaim. rewrite produced_eq in Hclaim.
  apply Forall_inv in Hclaim. destruct Hclaim as [Hvertices _].
  cbn in Hvertices. lia.
Qed.

(** The same holds on every mesh: no list is shorter than a negative cap. *)
Lemma negative_cap_not_respected
    (V : Type) (vs : list V) (idx : list Z) (mv mt : Z) :
  mv < 0 -> ~ Forall (caps_respected mv mt) (produced vs idx mv mt).
Proof.
  intros Hneg Hall. rewrite produced_eq in Hall.
  apply Forall_inv in Hall. destruct Hall as [Hvertices _].
  cbn [vertices] in Hvertices.
  pose proof (slice_to_negative vs Hneg) as Hlen. lia.
Qed.

(** C2, amended: for every input and every configuration whose two caps
    are not negative, every meshlet produced has at most [max_vertices]
    vertex rows and at most [3 * max_triangles] indices, that is at most
    [max_triangles] triangles. *)
Theorem caps_respected_nonneg
    (V : Type) (vs : list V) (idx : list Z) (mv mt : Z) :
  0 <= mv -> 0 <= mt ->
  Forall (caps_respected mv mt) (produced vs idx mv mt).
Proof.
  intros Hmv Hmt. rewrite produced_eq.
  constructor; [| constructor].
  split; cbn [vertices].
  - apply slice_to_length, Hmv.
  - cbn [indices].
    pose proof (@slice_to_length Z idx (mt * 3) ltac:(lia)) as Hslice.
    lia.
Qed.

Lemma caps_respected_nonneg_witness :
  0 <= 3 /\ 0 <= 1
  /\ Forall (caps_respected 3 1) (produced quad quad_indices 3 1).
Proof.
  assert (Hmv : 0 <= 3) by lia.
  assert (Hmt : 0 <= 1) by lia.
  repeat split; try assumption.
  exact (@caps_respected_nonneg vec3 quad quad_indices 3 1 Hmv Hmt).
Defined.

(** ** Local indices *)

(** C6, as stated, fails: with [max_vertices = 3] the meshlet of the square
    keeps three vertex rows and still holds the index [3]. *)
Lemma local_validity_counterexample :
  ~ local_validity_at quad quad_indices 3 126.
Proof.
  intros Hclaim.
  specialize (Hclaim quad_valid).
  rewrite produced_eq in Hclaim. apply Forall_inv in Hclaim.
  unfold local_indices_valid in Hclaim. cbn in Hclaim.
  rewrite Forall_forall in Hclaim.
  assert (Hin : In 3 [0; 1; 2; 2; 1; 3]) by (simpl; tauto).
  specialize (Hclaim 3 Hin). unfold index_in_range in Hclaim. simpl in Hclaim.
  lia.
Qed.

(** C6, amended: for every meshlet produced from a valid input of at most
    [max_vertices] vertices, every index of the meshlet is less than the
    number of vertex rows of that meshlet (the indices are those of the
    input, unchanged, and the rows are the whole vertex buffer). *)
Theorem local_indices_valid_small_mesh
    (V : Type) (vs : list V) (idx : list Z) (mv mt : Z) :
  valid_input vs idx -> Z.of_nat (length vs) <= mv ->
  Forall (@local_indices_valid V) (produced vs idx mv mt).
Proof.
  intros [_ Hrange] Hfit. rewrite produced_eq.
  constructor; [| constructor].
  unfold local_indices_valid. cbn [vertices indices].
  rewrite (slice_to_all vs Hfit).
  rewrite Forall_forall in *. intros i Hin.
  apply Hrange. exact (slice_to_incl _ _ _ Hin).
Qed.

Lemma local_indices_valid_small_mesh_witness :
  valid_input quad quad_indices /\ Z.of_nat (length quad) <= 64
  /\ Forall (@local_indices_valid vec3) (produced quad quad_indices 64 126).
Proof.
  assert (Hfit : Z.of_nat (length quad) <= 64) by (simpl; lia).
  repeat split; try assumption; try apply quad_valid.
  exact (@local_indices_valid_small_mesh vec3 quad quad_indices 64 126
           quad_valid Hfit).
Defined.

(** ** The culling cone *)

Lemma produced_cone_of
    (V : Type) (vs : list V) (idx : list Z) (mv mt : Z) (m : Meshlet V) :
  In m (produced vs idx mv mt) ->
  cone_of m = Some (0, 1, 0, 1 # 2)%Q.
Proof.
  intros Hin. apply produced_inv in Hin as (_ & _ & Hcone).
  unfold cone_of. rewrite Hcone. reflexivity.
Qed.

(** *** No bounding sphere *)

(** The dictionary has the three keys of the literal and no other. *)
Lemma Meshlet_get_some (V : Type) (m : Meshlet V) (key : string) :
  Meshlet_get m key <> None
  <-> key = "vertices"%string \/ key = "indices"%string
      \/ key = "cone"%string.
Proof.
  unfold Meshlet_get.
  destruct (String.eqb_spec key "vertices") as [-> | Hv];
    [split; [intros _; left; reflexivity | discriminate] |].
  destruct (String.eqb_spec key "indices") as [-> | Hi];
    [split; [intros _; right; left; reflexivity | discriminate] |].
  destruct (String.eqb_spec key "cone") as [-> | Hc];
    [split; [intros _; right; right; reflexivity | discriminate] |].
  split; [intros Habs; contradiction | intros [H | [H | H]]; contradiction].
Qed.

Lemma sphere_of_none (V : Type) (m : Meshlet V) : sphere_of m = None.
Proof. reflexivity. Qed.

Lemma sphere_never_sound
    (V : Type) (position : V -> vec3) (m : Meshlet V) :
  ~ sphere_sound position m.
Proof.
  intros (center & radius & Hsphere & _).
  rewrite sphere_of_none in Hsphere. discriminate Hsphere.
Qed.

(** *** Normals *)

Lemma Q2R_zero : Q2R 0 = 0%R.
Proof. unfold Q2R. simpl. lra. Qed.

Lemma Q2R_one : Q2R 1 = 1%R.
Proof. unfold Q2R. simpl. lra. Qed.

Lemma Q2R_half : Q2R (1 # 2) = (1 / 2)%R.
Proof. unfold Q2R. simpl. lra. Qed.

Lemma Q2R_dot_self (c : vec3) :
  Q2R (dot c c)
  = (Q2R (vx c) * Q2R (vx c) + Q2R (vy c) * Q2R (vy c)
     + Q2R (vz c) * Q2R (vz c))%R.
Proof.
  unfold dot. rewrite !Q2R_plus, !Q2R_mult. reflexivity.
Qed.

Lemma norm3_pos (c : vec3) : ~ (dot c c == 0)%Q -> (0 < norm3 c)%R.
Proof.
  intros Hnz. unfold norm3. apply sqrt_lt_R0.
  assert (Hne : Q2R (dot c c) <> 0%R).
  { intros Heq. apply Hnz. apply eqR_Qeq. rewrite Heq, Q2R_zero.
    reflexivity. }
  pose proof (Q2R_dot_self c) as Hsq.
  assert (Hge : (0 <= Q2R (dot c c))%R) by (rewrite Hsq; nra).
  lra.
Qed.

Lemma norm3_square (c : vec3) : (norm3 c * norm3 c = Q2R (dot c c))%R.
Proof.
  unfold norm3. apply sqrt_sqrt. rewrite Q2R_dot_self. nra.
Qed.

Lemma dotR_y_axis (n : rvec3) : dotR n (to_R3 (0, 1, 0)%Q) = ry n.
Proof.
  unfold dotR, to_R3, rx, ry, rz, vx, vy, vz. cbn [fst snd].
  rewrite Q2R_zero, Q2R_one. ring.
Qed.

Section Normals.

Variable V : Type.
Variable position : V -> vec3.

Lemma face_normal_of_cross (m : Meshlet V) (t : Triangle) (c : vec3) :
  face_cross position m t = Some c -> ~ (dot c c == 0)%Q ->
  face_normal position m t = Some (normalize c).
Proof.
  intros Hc Hnz. unfold face_normal. rewrite Hc.
  destruct (Qeq_bool (dot c c) 0) eqn:Hzero; [| reflexivity].
  apply Qeq_bool_eq in Hzero. contradiction.
Qed.


End Normals.

(** The unit normal along [c] has a [y] component of at least [1/2]
    exactly when [c] points upwards and [|c|^2 <= 4 c_y^2]: a test on the
    rationals of the rows. *)
Lemma y_half_iff_rational (c : vec3) :
  ~ (dot c c == 0)%Q ->
  ((1 / 2 <= ry (normalize c))%R
   <-> (0 <= vy c /\ dot c c <= 4 * vy c * vy c)%Q).
Proof.
  intros Hnz.
  pose proof (norm3_pos Hnz) as Hpos.
  pose proof (norm3_square c) as Hsq.
  assert (Hfour : Q2R (4 * vy c * vy c)
                  = (4 * Q2R (vy c) * Q2R (vy c))%R).
  { rewrite !Q2R_mult. unfold Q2R at 1. simpl. lra. }
  unfold normalize, ry. cbn [fst snd].
  set (L := norm3 c) in *. set (y := Q2R (vy c)) in *.
  assert (Hdiv : (1 / 2 <= y / L)%R <-> (L <= 2 * y)%R).
  { assert (Hy : y = (y / L * L)%R) by (field; lra).
    set (q := (y / L)%R) in *.
    split; intros H.
    - rewrite Hy. nra.
    - apply (Rmult_le_reg_r L); [exact Hpos |]. nra. }
  rewrite Hdiv. split.
  - intros Hle. split.
    + apply Rle_Qle. rewrite Q2R_zero. fold y. lra.
    + apply Rle_Qle. rewrite Hfour, <- Hsq. fold y. nra.
  - intros [Hy Hc].
    apply Qle_Rle in Hy. rewrite Q2R_zero in Hy. fold y in Hy.
    apply Qle_Rle in Hc. rewrite Hfour, <- Hsq in Hc. fold y in Hc.
    nra.
Qed.

(** *** The claim and its amendment *)

Lemma tri_down_produced :
  produced tri_down [0; 1; 2] 64 126 = [tri_down_meshlet].
Proof. reflexivity. Qed.

Lemma tri_up_produced :
  produced tri_up [0; 1; 2] 64 126 = [tri_up_meshlet].
Proof. reflexivity. Qed.


(** The sphere half fails on it: the meshlet has no sphere. *)
Lemma tri_down_sphere_unsound :
  ~ sphere_sound_at (fun p : vec3 => p) tri_down [0; 1; 2] 64 126.
Proof.
  unfold sphere_sound_at. rewrite tri_down_produced. intros Hall.
  apply Forall_inv in Hall. exact (sphere_never_sound Hall).
Qed.


(** A triangle whose cross product has an irrational length has a face
    normal as well, here along [(-1, 1, 0)], and the constant cone admits
    it: its [y] component is [1 / sqrt 2]. *)
Lemma tri_skew_normal :
  face_normal (fun p : vec3 => p) tri_skew_meshlet (0, 1, 2)
  = Some (normalize (-1, 1, 0)%Q).
Proof.
  apply face_normal_of_cross; [reflexivity |].
  intros Hzero. discriminate Hzero.
Qed.

Lemma tri_skew_admitted :
  (Q2R (1 # 2) <= dotR (normalize (-1, 1, 0)%Q) (to_R3 (0, 1, 0)%Q))%R.
Proof.
  assert (Hnz : ~ (dot (-1, 1, 0) (-1, 1, 0) == 0)%Q)
    by (intros Hzero; discriminate Hzero).
  rewrite dotR_y_axis, Q2R_half. apply (y_half_iff_rational Hnz).
  split; intros Hgt; discriminate Hgt.
Qed.




(** ** The single-triangle scenario *)

(** C8, as stated, fails: for one triangle under the default configuration
    the cutoff of the returned cone is [0.5], not [1.0]. *)
Lemma single_triangle_counterexample :
  ~ single_triangle_at tri_up.
Proof.
  intros Hclaim.
  destruct (Hclaim eq_refl) as (m & ax & ay & az & c & Hm & _ & Hc & Hone).
  assert (Hin : In m (produced tri_up [0; 1; 2] default_max_vertices
                        default_max_triangles))
    by (rewrite Hm; left; reflexivity).
  rewrite (produced_cone_of Hin) in Hc.
  injection Hc as <- <- <- <-.
  discriminate Hone.
Qed.

(** C8, amended: for 3 vertices and the index buffer [[0, 1, 2]] under
    [max_vertices = 64, max_triangles = 126], exactly one meshlet is
    returned; its [vertices] are the three rows of the vertex buffer, its
    [indices] are the flat triple [[0, 1, 2]], and its cone is
    [[0, 1, 0, 0.5]], so the cutoff is [0.5]. *)
Theorem single_triangle_result (V : Type) (vs : list V) :
  length vs = 3%nat ->
  Py.result (generate_meshlets vs [0; 1; 2] default_max_vertices
               default_max_triangles)
  = Py.Returned
      [{| vertices := vs; indices := [0; 1; 2];
          cone := [Py.Int 0; Py.Int 1; Py.Int 0; Py.Float (1 # 2)] |}]
  /\ map (@cone_of V)
       (produced vs [0; 1; 2] default_max_vertices default_max_triangles)
     = [Some (0, 1, 0, 1 # 2)%Q].
Proof.
  intros Hlen. split; [| reflexivity].
  unfold Py.result. rewrite generate_meshlets_run. cbn [snd].
  rewrite slice_to_all by (unfold default_max_vertices; lia).
  reflexivity.
Qed.

Lemma single_triangle_result_witness :
  length tri_up = 3%nat
  /\ Py.result (generate_meshlets tri_up [0; 1; 2] default_max_vertices
                  default_max_triangles)
     = Py.Returned
         [{| vertices := tri_up; indices := [0; 1; 2];
             cone := [Py.Int 0; Py.Int 1; Py.Int 0; Py.Float (1 # 2)] |}]
  /\ map (@cone_of vec3)
       (produced tri_up [0; 1; 2] default_max_vertices default_max_triangles)
     = [Some (0, 1, 0, 1 # 2)%Q].
Proof.
  split; [reflexivity |].
  exact (@single_triangle_result vec3 tri_up eq_refl).
Defined.

(** ** More on slices *)

Lemma slice_to_nil (A : Type) (stop : Z) : Py.slice_to (@nil A) stop = [].
Proof.
  unfold Py.slice_to. destruct (0 <=? stop); apply firstn_nil.
Qed.

Lemma slice_to_prefix (A : Type) (a : list A) (stop : Z) :
  exists rest, a = Py.slice_to a stop ++ rest.
Proof.
  unfold Py.slice_to. destruct (0 <=? stop);
    eexists; symmetry; apply firstn_skipn.
Qed.

Lemma slice_to_length_nonneg (A : Type) (a : list A) (stop : Z) :
  0 <= stop ->
  Z.of_nat (length (Py.slice_to a stop)) = Z.min stop (Z.of_nat (length a)).
Proof.
  intros Hstop. unfold Py.slice_to.
  destruct (Z.leb_spec 0 stop) as [_ | Hneg]; [| lia].
  rewrite length_firstn. lia.
Qed.

Lemma slice_to_length_neg (A : Type) (a : list A) (stop : Z) :
  stop < 0 ->
  Z.of_nat (length (Py.slice_to a stop))
  = Z.max 0 (Z.of_nat (length a) + stop).
Proof.
  intros Hneg. rewrite (slice_to_negative a Hneg). lia.
Qed.

(** ** Slices and triangles *)

Lemma triangles_of_count (flat : list Z) :
  length (triangles_of flat) = (length flat / 3)%nat.
Proof.
  induction flat as [| a | a b | a b c rest IH] using list_ind3;
    cbn [length triangles_of]; try reflexivity.
  replace (S (S (S (length rest)))) with (length rest + 1 * 3)%nat by lia.
  rewrite Nat.div_add by discriminate. lia.
Qed.

Lemma triangles_of_firstn (flat : list Z) (n : nat) :
  triangles_of (firstn n flat) = firstn (n / 3) (triangles_of flat).
Proof.
  revert n.
  induction flat as [| a | a b | a b c rest IH] using list_ind3; intros n.
  - rewrite firstn_nil. cbn [triangles_of]. rewrite firstn_nil. reflexivity.
  - cbn [triangles_of]. rewrite firstn_nil. destruct n as [| n].
    + reflexivity.
    + cbn [firstn]. rewrite firstn_nil. reflexivity.
  - cbn [triangles_of]. rewrite firstn_nil. destruct n as [| [| n]].
    + reflexivity.
    + reflexivity.
    + cbn [firstn]. rewrite firstn_nil. reflexivity.
  - destruct n as [| [| [| n]]]; try reflexivity.
    replace (S (S (S n)) / 3)%nat with (S (n / 3)).
    + cbn [firstn triangles_of]. rewrite IH. reflexivity.
    + replace (S (S (S n))) with (n + 1 * 3)%nat by lia.
      rewrite Nat.div_add by discriminate. lia.
Qed.

Lemma triangles_of_slice_to (flat : list Z) (stop : Z) :
  triangles_of (Py.slice_to flat (stop * 3))
  = Py.slice_to (triangles_of flat) stop.
Proof.
  unfold Py.slice_to.
  destruct (Z.leb_spec 0 stop) as [Hpos | Hneg];
    destruct (Z.leb_spec 0 (stop * 3)) as [Hpos3 | Hneg3]; try lia;
    rewrite triangles_of_firstn; f_equal.
  - replace (Z.to_nat (stop * 3)) with (Z.to_nat stop * 3)%nat by lia.
    apply Nat.div_mul. discriminate.
  - rewrite triangles_of_count.
    apply Nat2Z.inj. rewrite !Nat2Z.inj_div.
    change (Z.of_nat 3) with 3.
    pose proof (Nat2Z.is_nonneg (length flat)) as Hlen.
    set (len := Z.of_nat (length flat)) in *.
    rewrite !ZifyInst.of_nat_to_nat_eq.
    Z.to_euclidean_division_equations. lia.
Qed.

Lemma firstn_whole_triangles (A : Type) (a : list A) (n : nat) :
  (n mod 3 = 0)%nat -> (length a mod 3 = 0)%nat ->
  (length (firstn n a) mod 3 = 0)%nat.
Proof.
  intros Hn Ha. rewrite length_firstn.
  destruct (Nat.min_spec n (length a)) as [[_ ->] | [_ ->]]; assumption.
Qed.

(** ** What the meshlet keeps of the two buffers *)

(** The meshlet never reorders and never invents data: for every
    configuration, negative caps included, its [vertices] are a prefix of
    the vertex buffer and its [indices] a prefix of the index buffer. *)
Theorem meshlet_buffers_are_prefixes
    (V : Type) (vs : list V) (idx : list Z) (mv mt : Z) :
  Forall (fun m => (exists rest, vs = vertices m ++ rest)
                   /\ (exists rest, idx = indices m ++ rest))
    (produced vs idx mv mt).
Proof.
  rewrite produced_eq. constructor; [| constructor].
  cbn [vertices indices]. split; apply slice_to_prefix.
Qed.

(** With caps that are not negative the meshlet holds exactly
    [min(max_vertices, len(vertices))] rows and
    [min(3 * max_triangles, len(indices))] indices. *)
Theorem meshlet_sizes_nonneg_caps
    (V : Type) (vs : list V) (idx : list Z) (mv mt : Z) :
  0 <= mv -> 0 <= mt ->
  Forall (fun m =>
            Z.of_nat (length (vertices m)) = Z.min mv (Z.of_nat (length vs))
            /\ Z.of_nat (length (indices m))
               = Z.min (3 * mt) (Z.of_nat (length idx)))
    (produced vs idx mv mt).
Proof.
  intros Hmv Hmt. rewrite produced_eq. constructor; [| constructor].
  cbn [vertices indices]. split.
  - apply slice_to_length_nonneg, Hmv.
  - rewrite slice_to_length_nonneg by lia. f_equal. lia.
Qed.

Lemma meshlet_sizes_nonneg_caps_witness :
  0 <= 3 /\ 0 <= 1
  /\ Forall (fun m =>
               Z.of_nat (length (vertices m))
               = Z.min 3 (Z.of_nat (length quad))
               /\ Z.of_nat (length (indices m))
                  = Z.min (3 * 1) (Z.of_nat (length quad_indices)))
       (produced quad quad_indices 3 1).
Proof.
  assert (Hmv : 0 <= 3) by lia.
  assert (Hmt : 0 <= 1) by lia.
  split; [exact Hmv |]. split; [exact Hmt |].
  exact (@meshlet_sizes_nonneg_caps vec3 quad quad_indices 3 1 Hmv Hmt).
Defined.

(** A negative [max_vertices] is not refused: the meshlet keeps all rows
    but the last [- max_vertices], and no row when there are not that
    many. *)
Theorem negative_max_vertices_drops_last_rows
    (V : Type) (vs : list V) (idx : list Z) (mv mt : Z) :
  mv < 0 ->
  Forall (fun m =>
            vertices m = firstn (length vs - Z.to_nat (- mv)) vs
            /\ Z.of_nat (length (vertices m))
               = Z.max 0 (Z.of_nat (length vs) + mv))
    (produced vs idx mv mt).
Proof.
  intros Hneg. rewrite produced_eq. constructor; [| constructor].
  cbn [vertices]. split.
  - unfold Py.slice_to.
    destruct (Z.leb_spec 0 mv) as [Hpos | _]; [lia |].
    f_equal. lia.
  - apply slice_to_length_neg, Hneg.
Qed.

Lemma negative_max_vertices_drops_last_rows_witness :
  -1 < 0
  /\ Forall (fun m =>
               vertices m = firstn (length quad - Z.to_nat (- -1)) quad
               /\ Z.of_nat (length (vertices m))
                  = Z.max 0 (Z.of_nat (length quad) + -1))
       (produced quad quad_indices (-1) 126).
Proof.
  assert (Hneg : -1 < 0) by lia.
  split; [exact Hneg |].
  exact (@negative_max_vertices_drops_last_rows vec3 quad quad_indices
           (-1) 126 Hneg).
Defined.

Lemma flatten_triangles_of (flat : list Z) :
  (length flat mod 3 = 0)%nat ->
  flatten_triangles (triangles_of flat) = flat.
Proof.
  induction flat as [| a | a b | a b c rest IH] using list_ind3;
    cbn [length triangles_of flatten_triangles flat_map]; intros Hmod.
  - reflexivity.
  - discriminate Hmod.
  - discriminate Hmod.
  - replace (S (S (S (length rest)))) with (length rest + 1 * 3)%nat in Hmod
      by lia.
    rewrite Nat.Div0.mod_add in Hmod.
    cbn [app]. f_equal. f_equal. f_equal. exact (IH Hmod).
Qed.

Lemma slice_to_whole_triangles (flat : list Z) (stop : Z) :
  (length flat mod 3 = 0)%nat ->
  (length (Py.slice_to flat (stop * 3)) mod 3 = 0)%nat.
Proof.
  intros Hmod. unfold Py.slice_to.
  destruct (Z.leb_spec 0 (stop * 3)) as [Hpos | Hneg];
    apply firstn_whole_triangles; try exact Hmod.
  - replace (Z.to_nat (stop * 3)) with (Z.to_nat stop * 3)%nat by lia.
    apply Nat.Div0.mod_mul.
  - pose proof (triangles_of_length flat Hmod) as Hlen.
    replace (Z.to_nat (Z.of_nat (length flat) + stop * 3))
      with (Z.to_nat (Z.of_nat (length (triangles_of flat)) + stop) * 3)%nat
      by lia.
    apply Nat.Div0.mod_mul.
Qed.

(** When the index count of the input is a multiple of three, cutting the
    flat buffer at [max_triangles * 3] cuts no triangle: for every
    [max_triangles], negative or not, the indices of the meshlet are the
    slice [[:max_triangles]] of the input triangles laid out flat, whole
    triangles in their order and nothing else. *)
Theorem meshlet_indices_are_whole_triangles
    (V : Type) (vs : list V) (idx : list Z) (mv mt : Z) :
  (length idx mod 3 = 0)%nat ->
  Forall (fun m => indices m
                   = flatten_triangles (Py.slice_to (triangles_of idx) mt))
    (produced vs idx mv mt).
Proof.
  intros Hmod. rewrite produced_eq. constructor; [| constructor].
  cbn [indices].
  rewrite <- triangles_of_slice_to.
  symmetry. apply flatten_triangles_of, slice_to_whole_triangles, Hmod.
Qed.

Lemma meshlet_indices_are_whole_triangles_witness :
  (length quad_indices mod 3 = 0)%nat
  /\ Forall (fun m => indices m
                      = flatten_triangles
                          (Py.slice_to (triangles_of quad_indices) (-1)))
       (produced quad quad_indices 64 (-1)).
Proof.
  assert (Hmod : (length quad_indices mod 3 = 0)%nat) by reflexivity.
  split; [exact Hmod |].
  exact (@meshlet_indices_are_whole_triangles vec3 quad quad_indices
           64 (-1) Hmod).
Defined.

(** Without that hypothesis a negative cap can cut a triangle: of seven
    indices, [max_triangles = -1] keeps four, the last one alone. *)
Lemma negative_cap_can_cut_a_triangle :
  map (@indices vec3) (produced quad [10; 11; 12; 13; 14; 15; 16] 64 (-1))
  = [[10; 11; 12; 13]].
Proof. reflexivity. Qed.

(** When the index count of the input is a multiple of three, so is the
    index count of the meshlet, for every [max_triangles]. *)
Theorem meshlet_index_count_multiple_of_three
    (V : Type) (vs : list V) (idx : list Z) (mv mt : Z) :
  (length idx mod 3 = 0)%nat ->
  Forall (fun m => (length (indices m) mod 3 = 0)%nat)
    (produced vs idx mv mt).
Proof.
  intros Hmod. rewrite produced_eq. constructor; [| constructor].
  cbn [indices]. unfold Py.slice_to.
  destruct (Z.leb_spec 0 (mt * 3)) as [Hpos | Hneg];
    apply firstn_whole_triangles; try exact Hmod.
  - replace (Z.to_nat (mt * 3)) with (Z.to_nat mt * 3)%nat by lia.
    apply Nat.Div0.mod_mul.
  - pose proof (triangles_of_length idx Hmod) as Hlen.
    replace (Z.to_nat (Z.of_nat (length idx) + mt * 3))
      with (Z.to_nat (Z.of_nat (length (triangles_of idx)) + mt) * 3)%nat
      by lia.
    apply Nat.Div0.mod_mul.
Qed.

Lemma meshlet_index_count_multiple_of_three_witness :
  (length quad_indices mod 3 = 0)%nat
  /\ Forall (fun m => (length (indices m) mod 3 = 0)%nat)
       (produced quad quad_indices 64 (-1)).
Proof.
  assert (Hmod : (length quad_indices mod 3 = 0)%nat) by reflexivity.
  split; [exact Hmod |].
  exact (@meshlet_index_count_multiple_of_three vec3 quad quad_indices
           64 (-1) Hmod).
Defined.

(** ** When the expected properties hold *)

(** The caps are respected exactly when neither is negative. *)
Theorem caps_respected_iff_nonneg
    (V : Type) (vs : list V) (idx : list Z) (mv mt : Z) :
  Forall (caps_respected mv mt) (produced vs idx mv mt)
  <-> 0 <= mv /\ 0 <= mt.
Proof.
  rewrite produced_eq. split.
  - intros Hall. apply Forall_inv in Hall.
    destruct Hall as [Hvertices Hindices].
    cbn [vertices indices] in *. lia.
  - intros [Hmv Hmt]. constructor; [| constructor].
    split; cbn [vertices indices].
    + apply slice_to_length, Hmv.
    + pose proof (@slice_to_length Z idx (mt * 3) ltac:(lia)). lia.
Qed.

(** Triangles are lost exactly when the mesh has more than
    [max_triangles] of them: the meshlet set covers the input if and only
    if the input has no triangle at all or at most [max_triangles]. *)
Theorem coverage_iff_within_cap
    (V : Type) (vs : list V) (idx : list Z) (mv mt : Z) :
  covers (produced vs idx mv mt) idx
  <-> triangles_of idx = []
      \/ Z.of_nat (length (triangles_of idx)) <= mt.
Proof.
  unfold covers. rewrite produced_eq.
  cbn [all_triangles flat_map indices]. rewrite app_nil_r.
  rewrite triangles_of_slice_to.
  split.
  - intros Hperm. apply Permutation_length in Hperm.
    destruct (Z.lt_ge_cases mt 0) as [Hneg | Hpos].
    + left. apply length_zero_iff_nil.
      pose proof (slice_to_length_neg (triangles_of idx) Hneg). lia.
    + right.
      pose proof (slice_to_length_nonneg (triangles_of idx) Hpos). lia.
  - intros [Hnil | Hcap].
    + rewrite Hnil, slice_to_nil. apply Permutation_refl.
    + rewrite slice_to_all by exact Hcap. apply Permutation_refl.
Qed.

Lemma slice_to_whole_iff (A : Type) (a : list A) (stop : Z) :
  Py.slice_to a stop = a <-> a = [] \/ Z.of_nat (length a) <= stop.
Proof.
  split.
  - intros Heq. apply (f_equal (@length A)) in Heq.
    destruct (Z.lt_ge_cases stop 0) as [Hneg | Hpos].
    + left. apply length_zero_iff_nil.
      pose proof (slice_to_length_neg a Hneg). lia.
    + right. pose proof (slice_to_length_nonneg a Hpos). lia.
  - intros [-> | Hfit].
    + apply slice_to_nil.
    + apply slice_to_all, Hfit.
Qed.

(** Nothing is truncated exactly when each buffer is empty or fits its
    cap: the meshlet then holds the whole vertex buffer and the whole
    index buffer, and in every other case it holds less. *)
Theorem whole_mesh_iff_fits_caps
    (V : Type) (vs : list V) (idx : list Z) (mv mt : Z) :
  produced vs idx mv mt
  = [{| vertices := vs; indices := idx;
        cone := [Py.Int 0; Py.Int 1; Py.Int 0; Py.Float (1 # 2)] |}]
  <-> (vs = [] \/ Z.of_nat (length vs) <= mv)
      /\ (idx = [] \/ Z.of_nat (length idx) <= 3 * mt).
Proof.
  rewrite produced_eq.
  replace (3 * mt) with (mt * 3) by lia.
  rewrite <- !slice_to_whole_iff. split.
  - intros Heq. injection Heq as Hvs Hidx. split; assumption.
  - intros [-> ->]. reflexivity.
Qed.

(** For a cap [max_vertices] that is not negative, the meshlet is
    self-contained (every index addresses one of its own rows) exactly
    when every index kept is below both [max_vertices] and the number of
    input vertices. *)
Theorem local_validity_iff
    (V : Type) (vs : list V) (idx : list Z) (mv mt : Z) :
  0 <= mv ->
  (Forall (@local_indices_valid V) (produced vs idx mv mt)
   <-> Forall (fun i => 0 <= i < Z.min mv (Z.of_nat (length vs)))
         (Py.slice_to idx (mt * 3))).
Proof.
  intros Hmv. rewrite produced_eq.
  pose proof (slice_to_length_nonneg vs Hmv) as Hlen.
  unfold local_indices_valid, index_in_range. split.
  - intros Hall. apply Forall_inv in Hall. cbn [vertices indices] in Hall.
    rewrite Hlen in Hall. exact Hall.
  - intros Hall. constructor; [| constructor].
    cbn [vertices indices]. rewrite Hlen. exact Hall.
Qed.

Lemma local_validity_iff_witness :
  0 <= 3
  /\ (Forall (@local_indices_valid vec3) (produced quad quad_indices 3 126)
      <-> Forall (fun i => 0 <= i < Z.min 3 (Z.of_nat (length quad)))
            (Py.slice_to quad_indices (126 * 3))).
Proof.
  assert (Hmv : 0 <= 3) by lia.
  split; [exact Hmv |].
  exact (@local_validity_iff vec3 quad quad_indices 3 126 Hmv).
Defined.

(** ** The empty mesh *)

(** An empty mesh is not refused either: for every configuration the call
    reports 0 vertices and 0 indices and returns one meshlet with no row
    and no index. *)
Theorem empty_mesh_gives_empty_meshlet (V : Type) (mv mt : Z) :
  Py.run (generate_meshlets (@nil V) [] mv mt)
  = (["OMNI Build Tool: Generating meshlets for 0 vertices and 0 indices..."
      %string],
     Py.Returned
       [{| vertices := []; indices := [];
           cone := [Py.Int 0; Py.Int 1; Py.Int 0; Py.Float (1 # 2)] |}]).
Proof.
  rewrite generate_meshlets_run, !slice_to_nil. reflexivity.
Qed.

(** ** The script body *)

Lemma arange_In (n : nat) (i : Z) :
  In i (arange n) <-> 0 <= i < Z.of_nat n.
Proof.
  unfold arange. rewrite in_map_iff. split.
  - intros (k & <- & Hk). apply in_seq in Hk. lia.
  - intros Hi. exists (Z.to_nat i). split; [lia |]. apply in_seq. lia.
Qed.

(** Whatever 100 rows the script draws, its call reports 100 vertices and
    90 indices and returns one meshlet that holds the first 64 rows and all
    90 indices [0 .. 89]: the 30 triangles are all there, and the meshlet
    is not self-contained, its indices from 64 on address no row of it. *)
Theorem script_call_meshlet (v : list vec3) :
  length v = 100%nat ->
  exists m,
    Py.run (script_call v)
    = (["OMNI Build Tool: Generating meshlets for 100 vertices and 90 indices..."
        %string],
       Py.Returned [m])
    /\ vertices m = firstn 64 v
    /\ length (vertices m) = 64%nat
    /\ indices m = arange 90
    /\ covers [m] (arange 90)
    /\ (forall i, In i (indices m) ->
                  index_in_range (length (vertices m)) i <-> i < 64)
    /\ ~ local_indices_valid m.
Proof.
  intros Hlen.
  assert (Hkept : length (firstn 64 v) = 64%nat)
    by (rewrite length_firstn, Hlen; reflexivity).
  exists {| vertices := firstn 64 v; indices := arange 90;
            cone := [Py.Int 0; Py.Int 1; Py.Int 0; Py.Float (1 # 2)] |}.
  cbn [vertices indices].
  split.
  { unfold script_call. rewrite generate_meshlets_run, Hlen. reflexivity. }
  split; [reflexivity |].
  split; [exact Hkept |].
  split; [reflexivity |].
  split.
  { unfold covers. cbn [all_triangles flat_map indices].
    rewrite app_nil_r. apply Permutation_refl. }
  split.
  - intros i Hi. apply arange_In in Hi.
    unfold index_in_range. rewrite Hkept. lia.
  - unfold local_indices_valid. cbn [vertices indices].
    rewrite Forall_forall. intros Hall.
    specialize (Hall 64 (proj2 (arange_In 90 64) ltac:(lia))).
    unfold index_in_range in Hall. rewrite Hkept in Hall. lia.
Qed.

Lemma script_call_meshlet_witness :
  length (repeat ((0, 0, 0)%Q : vec3) 100) = 100%nat
  /\ exists m,
       Py.run (script_call (repeat ((0, 0, 0)%Q : vec3) 100))
       = (["OMNI Build Tool: Generating meshlets for 100 vertices and 90 indices..."
           %string],
          Py.Returned [m])
       /\ vertices m = firstn 64 (repeat ((0, 0, 0)%Q : vec3) 100)
       /\ length (vertices m) = 64%nat
       /\ indices m = arange 90
       /\ covers [m] (arange 90)
       /\ (forall i, In i (indices m) ->
                     index_in_range (length (vertices m)) i <-> i < 64)
       /\ ~ local_indices_valid m.
Proof.
  split; [reflexivity |].
  exact (@script_call_meshlet (repeat ((0, 0, 0)%Q : vec3) 100) eq_refl).
Defined.
